(** * Resolver and data-store model of the GraphQL book/author server

    A shallow embedding of [src/server.js]: the two module-level arrays
    [authors] and [books], the field resolvers of [BookType], [AuthorType],
    [RootQueryType] and [RootMutationType], and the properties of the
    resolver layer.  The HTTP transport and the schema layer (argument
    coercion, result completion) are outside the model. *)

From Stdlib Require Import ZArith String List Bool Lia FinFun.
From ExtLib Require Import Structures.Monad Structures.MonadState.
From ExtLib Require Import Data.Monads.StateMonad.
Import ListNotations.
Import MonadNotation.
Local Open Scope monad_scope.
Local Open Scope Z_scope.
Local Open Scope string_scope.
Local Open Scope list_scope.

(** ** The JavaScript values the resolvers compare *)

Module JS.

(** What an argument or a property read can evaluate to in the
    resolvers: a missing property or an omitted optional argument reads
    as [Undefined], an explicit GraphQL [null] as [Null], an [Int] as
    [Num]. *)
Inductive value : Type :=
| Undefined
| Null
| Num (n : Z).

(** The operator [===] restricted to those values: no coercion, values of
    different kinds are never equal. *)
Definition strict_eq (a b : value) : bool :=
  match a, b with
  | Undefined, Undefined => true
  | Null, Null => true
  | Num x, Num y => Z.eqb x y
  | _, _ => false
  end.

(** [Array.prototype.find]: the first element, from index 0 upwards, on
    which the callback is true; [None] stands for the [undefined] it
    returns when there is none. *)
Definition find {A : Type} (f : A -> bool) (arr : list A) : option A :=
  List.find f arr.

(** [Array.prototype.filter]: a fresh array of the elements on which the
    callback is true, in index order. *)
Definition filter {A : Type} (f : A -> bool) (arr : list A) : list A :=
  List.filter f arr.

End JS.

Infix "===" := JS.strict_eq (at level 70, no associativity).

(** ** Records held by the data store *)

(** The two object-literal shapes the program builds:
    [{ id, name }] and [{ id, name, authorId }]. *)
Inductive Obj : Type :=
| AuthorObj (id : Z) (name : string)
| BookObj (id : Z) (name : string) (authorId : Z).

Definition Obj_eq_dec (x y : Obj) : {x = y} + {x <> y}.
Proof. decide equality; auto using Z.eq_dec, string_dec. Defined.

(** Property reads [o.id], [o.name] and [o.authorId].  Reading [authorId]
    from an object of the first shape gives [undefined]. *)
Definition id (o : Obj) : JS.value :=
  match o with
  | AuthorObj i _ => JS.Num i
  | BookObj i _ _ => JS.Num i
  end.

Definition name (o : Obj) : string :=
  match o with
  | AuthorObj _ n => n
  | BookObj _ n _ => n
  end.

Definition authorId (o : Obj) : JS.value :=
  match o with
  | AuthorObj _ _ => JS.Undefined
  | BookObj _ _ a => JS.Num a
  end.

(** The module-level state: the arrays bound to [const authors] and
    [const books]. *)
Record Store : Type := mkStore {
  authors : list Obj;
  books : list Obj
}.

Definition initial : Store :=
  {| authors :=
       [ AuthorObj 1 "J.K. Rowling";
         AuthorObj 2 "George R.R. Martin";
         AuthorObj 3 "J.R.R. Tolkien";
         AuthorObj 4 "Isaac Asimov" ];
     books :=
       [ BookObj 1 "Harry Potter and the Philosopher's Stone" 1;
         BookObj 2 "Harry Potter and the Chamber of Secrets" 1;
         BookObj 3 "A Game of Thrones" 2;
         BookObj 4 "A Clash of Kings" 2;
         BookObj 5 "The Hobbit" 3;
         BookObj 6 "The Lord of the Rings" 3;
         BookObj 7 "Foundation" 4;
         BookObj 8 "I, Robot" 4 ] |}.

(** ** Effects of the resolvers on the store *)

(** A resolver that touches the arrays is a computation in the state monad
    over [Store]; [runState] gives the returned value first and the store
    afterwards. *)
Definition Resolver : Type -> Type := state Store.

(** [authors.length] and [books.length]. *)
Definition authors_length : Resolver Z :=
  s <- get ;; ret (Z.of_nat (List.length (authors s))).

Definition books_length : Resolver Z :=
  s <- get ;; ret (Z.of_nat (List.length (books s))).

(** [books.push(o)]: the object becomes the last element of [books]; the
    other array is left alone. *)
Definition books_push (o : Obj) : Resolver unit :=
  s <- get ;;
  put {| authors := authors s; books := books s ++ [o] |}.

(** ** Field resolvers *)

Module BookType.

(** [author: resolve: (book) => authors.find((author) => author.id === book.authorId)] *)
Definition author (s : Store) (book : Obj) : option Obj :=
  JS.find (fun author => id author === authorId book) (authors s).

End BookType.

Module AuthorType.

(** [books: resolve: (author) => books.filter((book) => book.authorId === author.id)] *)
Definition books (s : Store) (author : Obj) : list Obj :=
  JS.filter (fun book => authorId book === id author) (books s).

End AuthorType.

Module RootQueryType.

(** [args] of the fields [book] and [author]: the optional [id]. *)
Record args : Type := mkArgs { args_id : JS.value }.

(** [book: resolve: (parent, args) => books.find((book) => book.id === args.id)] *)
Definition book (s : Store) (a : args) : option Obj :=
  JS.find (fun book => id book === args_id a) (books s).

(** [author: resolve: (parent, args) => authors.find((author) => author.id === args.id)] *)
Definition author (s : Store) (a : args) : option Obj :=
  JS.find (fun author => id author === args_id a) (authors s).

(** [books: resolve: () => books] *)
Definition books (s : Store) : list Obj := books s.

(** [authors: resolve: () => authors] *)
Definition authors (s : Store) : list Obj := authors s.

End RootQueryType.

Module RootMutationType.

(** [addBook]: builds [{ id: books.length + 1, name: args.name,
    authorId: args.authorId }], pushes it on [books] and returns it. *)
Definition addBook (args_name : string) (args_authorId : Z) : Resolver Obj :=
  len <- books_length ;;
  let book := BookObj (len + 1) args_name args_authorId in
  books_push book ;;
  ret book.

(** [addAuthor]: builds [{ id: authors.length + 1, name: args.name }],
    pushes it on [books] and returns it. *)
Definition addAuthor (args_name : string) : Resolver Obj :=
  len <- authors_length ;;
  let author := AuthorObj (len + 1) args_name in
  books_push author ;;
  ret author.

End RootMutationType.

(** ** Sequences of mutations *)

(** One mutation request, with its arguments. *)
Inductive Mutation : Type :=
| AddBook (args_name : string) (args_authorId : Z)
| AddAuthor (args_name : string).

Definition resolve (m : Mutation) : Resolver Obj :=
  match m with
  | AddBook n a => RootMutationType.addBook n a
  | AddAuthor n => RootMutationType.addAuthor n
  end.

(** Requests are served one at a time, each to completion; [serve] collects
    the records the resolvers returned, in request order. *)
Fixpoint serve (ms : list Mutation) : Resolver (list Obj) :=
  match ms with
  | [] => ret []
  | m :: rest =>
      o <- resolve m ;;
      os <- serve rest ;;
      ret (o :: os)
  end.

(** [reaches s s']: the process gets from store [s] to store [s'] by
    serving some number of mutations. *)
Inductive reaches (s : Store) : Store -> Prop :=
| reaches_refl : reaches s s
| reaches_step (s' : Store) (m : Mutation) :
    reaches s s' -> reaches s (execState (resolve m) s').

(** The stores the process can be in: the initial data followed by any
    number of mutations. *)
Definition reachable : Store -> Prop := reaches initial.

(** The stores the process gets to when only [addBook] is ever called. *)
Inductive reachable_by_addBook : Store -> Prop :=
| by_addBook_initial : reachable_by_addBook initial
| by_addBook_step (s : Store) (n : string) (a : Z) :
    reachable_by_addBook s ->
    reachable_by_addBook (execState (RootMutationType.addBook n a) s).

(** The [id] numbers of an array of records, in array order. *)
Definition ids (arr : list Obj) : list JS.value := map id arr.

(** [subsequence xs ys]: [xs] is obtained from [ys] by dropping elements,
    the kept ones staying in their order. *)
Inductive subsequence {A : Type} : list A -> list A -> Prop :=
| subsequence_nil : subsequence [] []
| subsequence_keep (x : A) (xs ys : list A) :
    subsequence xs ys -> subsequence (x :: xs) (x :: ys)
| subsequence_drop (y : A) (xs ys : list A) :
    subsequence xs ys -> subsequence xs (y :: ys).

(** Two different positions of an array holding records with equal [id]. *)
Definition id_collision (arr : list Obj) (i j : nat) : Prop :=
  i <> j /\
  exists x y, nth_error arr i = Some x /\ nth_error arr j = Some y /\
              id x = id y.

(** The ids [addBook] hands out when it is the only mutation: position
    plus one. *)
Definition position_ids (len : nat) : list JS.value :=
  map (fun i => JS.Num (Z.of_nat i + 1)) (seq 0 len).

(** Where a record may sit in [books] once the process has started from
    the initial data: a record of the book shape at index [j] carries the
    id [j + 1]; a record of the author shape carries the id 5 and sits
    behind the eight initial books. *)
Definition well_placed (j : nat) (o : Obj) : Prop :=
  match o with
  | BookObj i _ _ => i = Z.of_nat j + 1
  | AuthorObj i _ => i = 5 /\ (8 <= j)%nat
  end.

(** A run used to exercise the theorems on concrete data: an author is
    added, then a book that names the id the author was given. *)
Definition example_run : list Mutation :=
  [AddAuthor "Ursula K. Le Guin"; AddBook "Dune" 5].

Definition example_store : Store := execState (serve example_run) initial.

(** ** Sanity checks on the initial data *)

Example book_3_initial :
  RootQueryType.book initial (RootQueryType.mkArgs (JS.Num 3))
  = Some (BookObj 3 "A Game of Thrones" 2).
Proof. reflexivity. Qed.

Example addBook_dune_initial :
  runState (RootMutationType.addBook "Dune" 4) initial
  = (BookObj 9 "Dune" 4,
     {| authors := authors initial;
        books := books initial ++ [BookObj 9 "Dune" 4] |}).
Proof. reflexivity. Qed.

Example addAuthor_leguin_initial :
  runState (RootMutationType.addAuthor "Ursula K. Le Guin") initial
  = (AuthorObj 5 "Ursula K. Le Guin",
     {| authors := authors initial;
        books := books initial ++ [AuthorObj 5 "Ursula K. Le Guin"] |}).
Proof. reflexivity. Qed.

Example Book_author_dangling :
  BookType.author initial (BookObj 9 "Dune" 99) = None.
Proof. reflexivity. Qed.

Example Book_author_of_misfiled_record :
  BookType.author initial (AuthorObj 5 "Ursula K. Le Guin") = None.
Proof. reflexivity. Qed.

Example Author_books_tolkien :
  AuthorType.books initial (AuthorObj 3 "J.R.R. Tolkien")
  = [ BookObj 5 "The Hobbit" 3; BookObj 6 "The Lord of the Rings" 3 ].
Proof. reflexivity. Qed.

Example book_explicit_null :
  RootQueryType.book initial (RootQueryType.mkArgs JS.Null) = None.
Proof. reflexivity. Qed.

Example serve_two_addBook :
  RootQueryType.books
    (execState (serve [AddBook "Dune" 4; AddBook "Emma" 7]) initial)
  = books initial ++ [BookObj 9 "Dune" 4; BookObj 10 "Emma" 7].
Proof. reflexivity. Qed.

(** ** Basic facts *)

Section StrictEq.

Lemma strict_eq_spec (a b : JS.value) : reflect (a = b) (a === b).
Proof.
  destruct a as [| |x], b as [| |y]; simpl;
    try (constructor; congruence).
  destruct (Z.eqb_spec x y); constructor; congruence.
Qed.

Lemma strict_eq_true (a b : JS.value) : (a === b) = true <-> a = b.
Proof. destruct (strict_eq_spec a b); split; congruence. Qed.

Lemma strict_eq_false (a b : JS.value) : (a === b) = false <-> a <> b.
Proof. destruct (strict_eq_spec a b); split; congruence. Qed.

Lemma strict_eq_sym (a b : JS.value) : (a === b) = (b === a).
Proof.
  destruct (strict_eq_spec a b), (strict_eq_spec b a); congruence.
Qed.

(** Every record carries a number as its [id]. *)
Lemma id_is_num (o : Obj) : exists n, id o = JS.Num n.
Proof. destruct o; simpl; eauto. Qed.

End StrictEq.

(** What [find] returns, in terms of the position of the result. *)
Section Find.

Context {A : Type} (f : A -> bool).

Lemma find_first (arr : list A) (x : A) :
  JS.find f arr = Some x <->
  exists before after,
    arr = before ++ x :: after /\ f x = true /\
    Forall (fun y => f y = false) before.
Proof.
  unfold JS.find. split.
  - induction arr as [|y arr IH]; simpl; [discriminate|].
    destruct (f y) eqn:Hy.
    + intros [= ->]. exists [], arr. auto.
    + intros H. destruct (IH H) as (before & after & -> & Hx & Hb).
      exists (y :: before), after. auto.
  - intros (before & after & -> & Hx & Hb).
    induction Hb as [|y before Hy _ IH]; simpl.
    + now rewrite Hx.
    + now rewrite Hy.
Qed.

Lemma find_absent (arr : list A) :
  JS.find f arr = None <-> Forall (fun y => f y = false) arr.
Proof.
  unfold JS.find. induction arr as [|y arr IH]; simpl.
  - split; auto.
  - destruct (f y) eqn:Hy; split.
    + discriminate.
    + intros H. inversion H; congruence.
    + intros H. constructor; [assumption | now apply IH].
    + intros H. inversion H; now apply IH.
Qed.

End Find.

(** The mutations, run on an arbitrary store. *)
Section MutationEquations.

Variable s : Store.

Lemma addBook_run (n : string) (a : Z) :
  runState (RootMutationType.addBook n a) s
  = (BookObj (Z.of_nat (List.length (books s)) + 1) n a,
     {| authors := authors s;
        books := books s
                 ++ [BookObj (Z.of_nat (List.length (books s)) + 1) n a] |}).
Proof. reflexivity. Qed.

Lemma addAuthor_run (n : string) :
  runState (RootMutationType.addAuthor n) s
  = (AuthorObj (Z.of_nat (List.length (authors s)) + 1) n,
     {| authors := authors s;
        books := books s
                 ++ [AuthorObj (Z.of_nat (List.length (authors s)) + 1) n] |}).
Proof. reflexivity. Qed.

(** Every mutation pushes the record it returns on [books] and leaves
    [authors] as it was. *)
Lemma resolve_run (m : Mutation) :
  runState (resolve m) s
  = (evalState (resolve m) s,
     {| authors := authors s;
        books := books s ++ [evalState (resolve m) s] |}).
Proof. destruct m; reflexivity. Qed.

Lemma serve_cons (m : Mutation) (ms : list Mutation) :
  runState (serve (m :: ms)) s
  = (evalState (resolve m) s
       :: evalState (serve ms) (execState (resolve m) s),
     execState (serve ms) (execState (resolve m) s)).
Proof.
  unfold evalState, execState. simpl.
  destruct (runState (resolve m) s) as [o s1]. simpl.
  destruct (runState (serve ms) s1) as [os s2]. reflexivity.
Qed.

End MutationEquations.

(** ** The mutation resolvers *)

(** C1.  Whatever the store and the name, [addAuthor] builds the record
    [{ id: authors.length + 1, name }], returns it, and the store afterwards
    has that record as the new last element of [books] while [authors] is
    the same array as before. *)
Theorem addAuthor_appends_to_books (s : Store) (n : string) :
  let created := evalState (RootMutationType.addAuthor n) s in
  let s' := execState (RootMutationType.addAuthor n) s in
  created = AuthorObj (Z.of_nat (List.length (authors s)) + 1) n
  /\ id created = JS.Num (Z.of_nat (List.length (authors s)) + 1)
  /\ name created = n
  /\ books s' = books s ++ [created]
  /\ authors s' = authors s.
Proof.
  unfold evalState, execState. rewrite addAuthor_run. simpl.
  repeat split.
Qed.

(** C3.  Whatever the store, the name and the [authorId] (nothing is
    checked against [authors]), [addBook] builds the record
    [{ id: books.length + 1, name, authorId }], makes it the new last
    element of [books], and returns that same record. *)
Theorem addBook_appends_and_returns (s : Store) (n : string) (a : Z) :
  let created := evalState (RootMutationType.addBook n a) s in
  let s' := execState (RootMutationType.addBook n a) s in
  created = BookObj (Z.of_nat (List.length (books s)) + 1) n a
  /\ books s' = books s ++ [created]
  /\ nth_error (books s') (List.length (books s)) = Some created
  /\ List.length (books s') = S (List.length (books s))
  /\ authors s' = authors s.
Proof.
  unfold evalState, execState. rewrite addBook_run. simpl.
  repeat split.
  - rewrite nth_error_app2, Nat.sub_diag by lia. reflexivity.
  - rewrite length_app. simpl. lia.
Qed.

(** ** The lookup resolvers *)

(** C4.  [book(id)] on any store: when some record of [books] has the
    queried id, the result is a record of [books] with exactly that id;
    when none has, the result is absent.  The resolver is a total function,
    so there is no third outcome. *)
Theorem book_lookup (s : Store) (v : JS.value) :
  (In v (ids (books s)) ->
   exists b, RootQueryType.book s (RootQueryType.mkArgs v) = Some b
             /\ id b = v /\ In b (books s))
  /\ (~ In v (ids (books s)) ->
      RootQueryType.book s (RootQueryType.mkArgs v) = None).
Proof.
  unfold RootQueryType.book, ids. simpl. split.
  - intros Hin. apply in_map_iff in Hin as (x & Hx & Hin).
    destruct (JS.find (fun book => id book === v) (books s)) as [b|] eqn:Hf.
    + exists b. split; [reflexivity|].
      apply find_first in Hf as (before & after & Hs & Hb & _).
      split; [now apply strict_eq_true|].
      rewrite Hs. apply in_elt.
    + apply find_absent in Hf. rewrite Forall_forall in Hf.
      specialize (Hf x Hin). apply strict_eq_false in Hf. contradiction.
  - intros Hnot. apply find_absent, Forall_forall. intros x Hin.
    apply strict_eq_false. intros Heq. apply Hnot.
    apply in_map_iff. now exists x.
Qed.

Lemma book_lookup_witness :
  (exists b, RootQueryType.book initial (RootQueryType.mkArgs (JS.Num 3))
             = Some b
             /\ id b = JS.Num 3 /\ In b (books initial))
  /\ RootQueryType.book initial (RootQueryType.mkArgs (JS.Num 42)) = None.
Proof.
  split.
  - apply (proj1 (book_lookup initial (JS.Num 3))).
    simpl. auto.
  - apply (proj2 (book_lookup initial (JS.Num 42))).
    simpl. intuition discriminate.
Defined.

(** C5.  [Book.author] for any record [book] against any store (so in
    particular for every element of [books]): the result is an author [a]
    exactly when [a] sits in [authors] at the first position whose [id] is
    [book.authorId]; the result is absent exactly when no element of
    [authors] has that [id]. *)
Theorem Book_author_first_match (s : Store) (book : Obj) :
  (forall a,
     BookType.author s book = Some a <->
     exists before after,
       authors s = before ++ a :: after
       /\ id a = authorId book
       /\ Forall (fun x => id x <> authorId book) before)
  /\ (BookType.author s book = None <->
      Forall (fun x => id x <> authorId book) (authors s)).
Proof.
  unfold BookType.author. split.
  - intros a. rewrite find_first. split.
    + intros (before & after & Hs & Ha & Hb). exists before, after.
      repeat split; [assumption | now apply strict_eq_true |].
      eapply Forall_impl; [|exact Hb]. intros x. apply strict_eq_false.
    + intros (before & after & Hs & Ha & Hb). exists before, after.
      repeat split; [assumption | now apply strict_eq_true |].
      eapply Forall_impl; [|exact Hb]. intros x. apply strict_eq_false.
  - rewrite find_absent. split; intros H.
    + eapply Forall_impl; [|exact H]. intros x. apply strict_eq_false.
    + eapply Forall_impl; [|exact H]. intros x. apply strict_eq_false.
Qed.

(** [filter] keeps a subsequence, keeps only elements passing the test,
    and keeps every occurrence of an element passing it. *)
Section Filter.

Context {A : Type} (f : A -> bool).

Lemma filter_subsequence (arr : list A) :
  subsequence (JS.filter f arr) arr.
Proof.
  unfold JS.filter. induction arr as [|x arr IH]; simpl.
  - constructor.
  - destruct (f x); now constructor.
Qed.

Lemma filter_all_pass (arr : list A) :
  Forall (fun x => f x = true) (JS.filter f arr).
Proof.
  unfold JS.filter. apply Forall_forall. intros x Hx.
  now apply filter_In in Hx.
Qed.

Lemma filter_keeps_occurrences
      (eq_dec : forall x y : A, {x = y} + {x <> y})
      (arr : list A) (x : A) :
  f x = true ->
  count_occ eq_dec (JS.filter f arr) x = count_occ eq_dec arr x.
Proof.
  intros Hx. unfold JS.filter. induction arr as [|y arr IH]; simpl.
  - reflexivity.
  - destruct (f y) eqn:Hy; simpl.
    + destruct (eq_dec y x); now rewrite IH.
    + destruct (eq_dec y x) as [->|]; [congruence | exact IH].
Qed.

End Filter.

(** C6.  [Author.books] for any record [author] against any store: the
    result is a subsequence of [books] (nothing added, order kept), every
    record in it has [authorId] equal to [author.id], and every record of
    [books] with that [authorId] occurs in the result as many times as in
    [books] (nothing dropped). *)
Theorem Author_books_exact (s : Store) (author : Obj) :
  subsequence (AuthorType.books s author) (books s)
  /\ Forall (fun b => authorId b = id author) (AuthorType.books s author)
  /\ Forall (fun b => authorId b = id author ->
                      count_occ Obj_eq_dec (AuthorType.books s author) b
                      = count_occ Obj_eq_dec (books s) b)
            (books s).
Proof.
  unfold AuthorType.books. repeat split.
  - apply filter_subsequence.
  - eapply Forall_impl; [|apply filter_all_pass].
    intros b. apply strict_eq_true.
  - apply Forall_forall. intros b _ Hb.
    apply filter_keeps_occurrences. now apply strict_eq_true.
Qed.

(** C7.  With [id] omitted, [args.id] reads as [undefined]; on any store
    both [book] and [author] then return absent, so no element of either
    array, the first one included, is returned. *)
Theorem lookup_without_id_is_absent (s : Store) :
  RootQueryType.book s (RootQueryType.mkArgs JS.Undefined) = None
  /\ RootQueryType.author s (RootQueryType.mkArgs JS.Undefined) = None
  /\ Forall (fun b => RootQueryType.book s (RootQueryType.mkArgs JS.Undefined)
                      <> Some b) (books s)
  /\ Forall (fun a => RootQueryType.author s (RootQueryType.mkArgs JS.Undefined)
                      <> Some a) (authors s).
Proof.
  assert (Hnone : forall arr,
             JS.find (fun o => id o === JS.Undefined) arr = None).
  { intros arr. apply find_absent, Forall_forall. intros o _.
    destruct (id_is_num o) as [k ->]. reflexivity. }
  unfold RootQueryType.book, RootQueryType.author. simpl.
  rewrite !Hnone. repeat split; apply Forall_forall; discriminate.
Qed.

(** C10.  On any store, the record of [books] at the first position whose
    [id] is the queried one is what [book(id)] returns, whatever follows
    it; so when several records share the queried id the earliest of them
    is returned. *)
Theorem book_returns_earliest (s : Store) (v : JS.value)
        (before after : list Obj) (b : Obj) :
  books s = before ++ b :: after ->
  id b = v ->
  Forall (fun x => id x <> v) before ->
  RootQueryType.book s (RootQueryType.mkArgs v) = Some b.
Proof.
  intros Hs Hb Hbefore. unfold RootQueryType.book. simpl.
  apply find_first. exists before, after.
  repeat split; [assumption | now apply strict_eq_true |].
  eapply Forall_impl; [|exact Hbefore]. intros x. apply strict_eq_false.
Qed.

(** The store after [addAuthor("Ursula K. Le Guin")] on the initial data
    holds two records with [id] 5; [book(5)] returns the earlier one. *)
Lemma book_returns_earliest_witness :
  reachable
    (execState (RootMutationType.addAuthor "Ursula K. Le Guin") initial)
  /\ id_collision
       (books
          (execState (RootMutationType.addAuthor "Ursula K. Le Guin") initial))
       4 8
  /\ RootQueryType.book
       (execState (RootMutationType.addAuthor "Ursula K. Le Guin") initial)
       (RootQueryType.mkArgs (JS.Num 5))
     = Some (BookObj 5 "The Hobbit" 3).
Proof.
  split; [|split].
  - apply (reaches_step initial initial (AddAuthor "Ursula K. Le Guin")).
    constructor.
  - split; [discriminate|].
    exists (BookObj 5 "The Hobbit" 3), (AuthorObj 5 "Ursula K. Le Guin").
    repeat split.
  - apply (book_returns_earliest
             (execState (RootMutationType.addAuthor "Ursula K. Le Guin")
                        initial)
             (JS.Num 5)
             [ BookObj 1 "Harry Potter and the Philosopher's Stone" 1;
               BookObj 2 "Harry Potter and the Chamber of Secrets" 1;
               BookObj 3 "A Game of Thrones" 2;
               BookObj 4 "A Clash of Kings" 2 ]
             [ BookObj 6 "The Lord of the Rings" 3;
               BookObj 7 "Foundation" 4;
               BookObj 8 "I, Robot" 4;
               AuthorObj 5 "Ursula K. Le Guin" ]
             (BookObj 5 "The Hobbit" 3)).
    + reflexivity.
    + reflexivity.
    + repeat constructor; discriminate.
Defined.

(** ** Stores over time *)

Section Traces.

Lemma resolve_authors (s : Store) (m : Mutation) :
  authors (execState (resolve m) s) = authors s.
Proof. unfold execState. now rewrite resolve_run. Qed.

Lemma resolve_books (s : Store) (m : Mutation) :
  books (execState (resolve m) s) = books s ++ [evalState (resolve m) s].
Proof. unfold execState. now rewrite resolve_run. Qed.

Lemma serve_authors (ms : list Mutation) :
  forall s, authors (execState (serve ms) s) = authors s.
Proof.
  induction ms as [|m ms IH]; intros s.
  - reflexivity.
  - unfold execState. rewrite serve_cons. simpl.
    now rewrite IH, resolve_authors.
Qed.

Lemma serve_books (ms : list Mutation) :
  forall s, books (execState (serve ms) s)
            = books s ++ evalState (serve ms) s.
Proof.
  induction ms as [|m ms IH]; intros s.
  - simpl. now rewrite app_nil_r.
  - unfold execState, evalState. rewrite serve_cons. simpl.
    rewrite IH, resolve_books, <- app_assoc. reflexivity.
Qed.

Lemma serve_length (ms : list Mutation) :
  forall s, List.length (evalState (serve ms) s) = List.length ms.
Proof.
  induction ms as [|m ms IH]; intros s.
  - reflexivity.
  - unfold evalState. rewrite serve_cons. simpl. now rewrite IH.
Qed.

Lemma reaches_authors (s s' : Store) :
  reaches s s' -> authors s' = authors s.
Proof.
  induction 1 as [|s' m _ IH]; [reflexivity|].
  now rewrite resolve_authors.
Qed.

Lemma reaches_trans (s1 s2 s3 : Store) :
  reaches s1 s2 -> reaches s2 s3 -> reaches s1 s3.
Proof.
  intros H12 H23. induction H23; [assumption | now constructor].
Qed.

(** Serving a list of mutations is one way of writing a run. *)
Lemma serve_reaches (ms : list Mutation) :
  forall s, reaches s (execState (serve ms) s).
Proof.
  induction ms as [|m ms IH]; intros s.
  - constructor.
  - unfold execState. rewrite serve_cons. simpl.
    apply reaches_trans with (execState (resolve m) s); [|apply IH].
    repeat constructor.
Qed.

Lemma serve_snoc (ms : list Mutation) (m : Mutation) :
  forall s, execState (serve (ms ++ [m])) s
            = execState (resolve m) (execState (serve ms) s).
Proof.
  induction ms as [|m' ms IH]; intros s; simpl app.
  - unfold execState at 1. rewrite serve_cons. reflexivity.
  - unfold execState at 1 3. rewrite !serve_cons. simpl. apply IH.
Qed.

Lemma reaches_serve (s s' : Store) :
  reaches s s' -> exists ms, s' = execState (serve ms) s.
Proof.
  induction 1 as [|s' m _ [ms ->]].
  - now exists [].
  - exists (ms ++ [m]). now rewrite serve_snoc.
Qed.

End Traces.

(** C8.  From any store [s] and for any list of mutations served in order:
    [books()] and [authors()] return the arrays of the store as they are;
    the array [books] afterwards is the array [books] of [s], unchanged and
    in the same order, followed by the records the mutations returned, one
    per mutation, in request order, and that is what [books()] returns
    afterwards; the array [authors] afterwards is the array [authors] of
    [s], and that is what [authors()] returns afterwards; so every record
    keeps the index it had, in both query results. *)
Theorem sequences_append_only (s : Store) (ms : list Mutation) :
  RootQueryType.books s = books s
  /\ RootQueryType.authors s = authors s
  /\ books (execState (serve ms) s) = books s ++ evalState (serve ms) s
  /\ authors (execState (serve ms) s) = authors s
  /\ RootQueryType.books (execState (serve ms) s)
     = books s ++ evalState (serve ms) s
  /\ RootQueryType.authors (execState (serve ms) s) = authors s
  /\ List.length (evalState (serve ms) s) = List.length ms
  /\ (forall j o,
        nth_error (books s) j = Some o ->
        nth_error (RootQueryType.books (execState (serve ms) s)) j = Some o)
  /\ (forall j o,
        nth_error (authors s) j = Some o ->
        nth_error (RootQueryType.authors (execState (serve ms) s)) j
        = Some o).
Proof.
  assert (Hb : RootQueryType.books (execState (serve ms) s)
               = books s ++ evalState (serve ms) s)
    by (unfold RootQueryType.books; apply serve_books).
  assert (Ha : RootQueryType.authors (execState (serve ms) s) = authors s)
    by (unfold RootQueryType.authors; apply serve_authors).
  split; [reflexivity|]. split; [reflexivity|].
  split; [apply serve_books|]. split; [apply serve_authors|].
  split; [exact Hb|]. split; [exact Ha|].
  split; [apply serve_length|]. split.
  - intros j o Hj. rewrite Hb, nth_error_app1; [assumption|].
    apply nth_error_Some. congruence.
  - intros j o Hj. now rewrite Ha.
Qed.

(** C9.  For a reachable store [s], a call [addAuthor(n)] on it and any
    store [s'] the process gets to afterwards: neither [addBook] nor
    [addAuthor] changes [authors]; [authors()] is the initial four records
    before the call and ever after; the record the call returns has [id]
    equal to the initial author count plus one, whatever was called before;
    and that record is not an element of [authors()] nor the result of
    [author(id)] for any argument. *)
Theorem authors_never_modified (s s' : Store) (n : string) :
  reachable s ->
  reaches (execState (RootMutationType.addAuthor n) s) s' ->
  (forall bn a, authors (execState (RootMutationType.addBook bn a) s)
                = authors s)
  /\ authors (execState (RootMutationType.addAuthor n) s) = authors s
  /\ RootQueryType.authors s = authors initial
  /\ RootQueryType.authors s' = authors initial
  /\ id (evalState (RootMutationType.addAuthor n) s)
     = JS.Num (Z.of_nat (List.length (authors initial)) + 1)
  /\ ~ In (evalState (RootMutationType.addAuthor n) s)
          (RootQueryType.authors s')
  /\ forall a, RootQueryType.author s' a
               <> Some (evalState (RootMutationType.addAuthor n) s).
Proof.
  intros Hs Hs'.
  assert (Hfix : authors s = authors initial) by now apply reaches_authors.
  assert (Hfix' : authors s' = authors initial).
  { rewrite (reaches_authors _ _ Hs'), <- Hfix.
    exact (resolve_authors s (AddAuthor n)). }
  assert (Hnew : evalState (RootMutationType.addAuthor n) s = AuthorObj 5 n).
  { unfold evalState. rewrite addAuthor_run, Hfix. reflexivity. }
  assert (Hout : ~ In (AuthorObj 5 n) (authors initial)).
  { simpl. intros [H|[H|[H|[H|[]]]]]; discriminate H. }
  unfold RootQueryType.authors, RootQueryType.author.
  rewrite Hnew, Hfix'.
  split; [intros bn a; apply (resolve_authors s (AddBook bn a))|].
  split; [apply (resolve_authors s (AddAuthor n))|].
  repeat split; try assumption.
  intros a Hfind. apply Hout.
  apply find_first in Hfind as (before & after & -> & _).
  apply in_elt.
Qed.

(** After [addAuthor("Ursula K. Le Guin")] and then [addBook("Dune", 5)] on
    the initial data, the new author is still missing from [authors]. *)
Lemma authors_never_modified_witness :
  RootQueryType.authors
    (execState (RootMutationType.addBook "Dune" 5)
       (execState (RootMutationType.addAuthor "Ursula K. Le Guin") initial))
  = authors initial
  /\ id (evalState (RootMutationType.addAuthor "Ursula K. Le Guin") initial)
     = JS.Num 5
  /\ forall a,
       RootQueryType.author
         (execState (RootMutationType.addBook "Dune" 5)
            (execState (RootMutationType.addAuthor "Ursula K. Le Guin")
                       initial)) a
       <> Some (evalState (RootMutationType.addAuthor "Ursula K. Le Guin")
                          initial).
Proof.
  assert (Hs : reachable initial) by constructor.
  assert (Hs' : reaches
                  (execState (RootMutationType.addAuthor "Ursula K. Le Guin")
                             initial)
                  (execState (RootMutationType.addBook "Dune" 5)
                     (execState
                        (RootMutationType.addAuthor "Ursula K. Le Guin")
                        initial))).
  { apply (reaches_step _ _ (AddBook "Dune" 5)). constructor. }
  destruct (authors_never_modified _ _ "Ursula K. Le Guin" Hs Hs')
    as (_ & _ & _ & Hsame & Hid & _ & Hquery).
  repeat split; assumption.
Defined.

(** ** Uniqueness of ids in [books] *)

Section BookIds.

Lemma addBook_only_ids (s : Store) :
  reachable_by_addBook s ->
  ids (books s) = position_ids (List.length (books s)).
Proof.
  induction 1 as [|s n a _ IH]; [reflexivity|].
  unfold execState. rewrite addBook_run. simpl.
  unfold ids, position_ids in *.
  rewrite map_app, length_app, IH. simpl.
  rewrite Nat.add_1_r, seq_S, map_app. reflexivity.
Qed.

Lemma position_ids_NoDup (len : nat) : NoDup (position_ids len).
Proof.
  unfold position_ids. apply Injective_map_NoDup.
  - intros i j [= H]. lia.
  - apply seq_NoDup.
Qed.

(** With [addBook] as the only mutation, no two records of [books] ever
    share an id. *)
Lemma addBook_only_ids_unique (s : Store) :
  reachable_by_addBook s -> NoDup (ids (books s)).
Proof.
  intros H. rewrite (addBook_only_ids s H). apply position_ids_NoDup.
Qed.

Lemma collision_not_NoDup (arr : list Obj) (i j : nat) :
  id_collision arr i j -> ~ NoDup (ids arr).
Proof.
  intros [Hij (x & y & Hx & Hy & Hxy)] Hnd. apply Hij.
  rewrite NoDup_nth_error in Hnd. apply Hnd.
  - unfold ids. rewrite length_map. apply nth_error_Some. congruence.
  - unfold ids. rewrite !nth_error_map, Hx, Hy. simpl. now rewrite Hxy.
Qed.

End BookIds.

(** C2.  The store reached from the initial data by the single call
    [addAuthor("Ursula K. Le Guin")] holds, at positions 4 and 8 of
    [books], two records with [id] 5: the ids of [books] are not unique
    there. *)
Theorem addAuthor_breaks_book_id_uniqueness :
  reachable
    (execState (RootMutationType.addAuthor "Ursula K. Le Guin") initial)
  /\ nth_error
       (books
          (execState (RootMutationType.addAuthor "Ursula K. Le Guin") initial))
       4
     = Some (BookObj 5 "The Hobbit" 3)
  /\ nth_error
       (books
          (execState (RootMutationType.addAuthor "Ursula K. Le Guin") initial))
       8
     = Some (AuthorObj 5 "Ursula K. Le Guin")
  /\ ~ NoDup
       (ids
          (books
             (execState (RootMutationType.addAuthor "Ursula K. Le Guin")
                        initial))).
Proof.
  split; [|split; [|split]].
  - apply (reaches_step initial initial (AddAuthor "Ursula K. Le Guin")).
    constructor.
  - reflexivity.
  - reflexivity.
  - apply (collision_not_NoDup _ 4 8). split; [discriminate|].
    exists (BookObj 5 "The Hobbit" 3), (AuthorObj 5 "Ursula K. Le Guin").
    repeat split.
Qed.

(** ** Further properties of the resolvers *)

Section Reachability.

Lemma reaches_books_prefix (s s' : Store) :
  reaches s s' -> exists added, books s' = books s ++ added.
Proof.
  induction 1 as [|s' m _ [added IH]].
  - exists []. now rewrite app_nil_r.
  - exists (added ++ [evalState (resolve m) s']).
    now rewrite resolve_books, IH, app_assoc.
Qed.

Lemma reachable_authors (s : Store) :
  reachable s -> authors s = authors initial.
Proof. apply reaches_authors. Qed.

Lemma example_store_reachable : reachable example_store.
Proof. apply serve_reaches. Qed.

Lemma example_store_books :
  books example_store
  = books initial
    ++ [AuthorObj 5 "Ursula K. Le Guin"; BookObj 10 "Dune" 5].
Proof. reflexivity. Qed.

(** The shape of [books] in a reachable store. *)
Lemma reachable_books_shape (s : Store) :
  reachable s ->
  (8 <= List.length (books s))%nat
  /\ forall j o, nth_error (books s) j = Some o -> well_placed j o.
Proof.
  induction 1 as [|s' m Hs' [Hlen IH]].
  - split; [simpl; lia|].
    intros j o. simpl.
    do 8 (destruct j as [|j]; [intros [= <-]; simpl; lia|]).
    destruct j; discriminate.
  - rewrite resolve_books. split.
    + rewrite length_app. simpl. lia.
    + intros j o Hj.
      destruct (Nat.lt_ge_cases j (List.length (books s'))) as [Hlt|Hge].
      * rewrite nth_error_app1 in Hj by assumption. now apply IH.
      * rewrite nth_error_app2 in Hj by assumption.
        destruct (j - List.length (books s'))%nat as [|k] eqn:Hk;
          [|destruct k; discriminate].
        simpl in Hj. injection Hj as <-.
        assert (j = List.length (books s')) as -> by lia.
        destruct m as [n a|n]; unfold evalState; simpl resolve.
        -- rewrite addBook_run. simpl. reflexivity.
        -- rewrite addAuthor_run, (reachable_authors s' Hs'). simpl.
           split; [reflexivity | assumption].
Qed.

(** Every id held in [books] of a reachable store is a number between 1
    and the length of [books]. *)
Lemma reachable_ids_bounded (s : Store) (o : Obj) :
  reachable s -> In o (books s) ->
  exists k, id o = JS.Num k /\ 1 <= k <= Z.of_nat (List.length (books s)).
Proof.
  intros Hs Hin. destruct (reachable_books_shape s Hs) as [Hlen Hshape].
  apply In_nth_error in Hin as [j Hj].
  assert (Hlt : (j < List.length (books s))%nat)
    by (apply nth_error_Some; congruence).
  specialize (Hshape j o Hj). destruct o as [i n|i n a]; simpl in *.
  - exists i. split; [reflexivity | lia].
  - exists i. split; [reflexivity | lia].
Qed.

End Reachability.

(** *** What [books] looks like after any run *)

(** X1.  In every store reachable from the initial data, a record of
    [books()] at index [j] is either of the book shape with id [j + 1], or
    of the author shape with id 5 at an index of 8 or more. *)
Theorem books_shape_invariant (s : Store) (j : nat) (o : Obj) :
  reachable s ->
  nth_error (RootQueryType.books s) j = Some o ->
  (exists n a, o = BookObj (Z.of_nat j + 1) n a)
  \/ (exists n, o = AuthorObj 5 n /\ (8 <= j)%nat).
Proof.
  intros Hs Hj. unfold RootQueryType.books in Hj.
  destruct (reachable_books_shape s Hs) as [_ Hshape].
  specialize (Hshape j o Hj). destruct o as [i n|i n a]; simpl in Hshape.
  - right. exists n. destruct Hshape as [-> Hge]. auto.
  - left. exists n, a. now rewrite Hshape.
Qed.

Lemma books_shape_invariant_witness :
  (exists n a, BookObj 10 "Dune" 5 = BookObj (Z.of_nat 9 + 1) n a)
  \/ (exists n, BookObj 10 "Dune" 5 = AuthorObj 5 n /\ (8 <= 9)%nat).
Proof.
  apply (books_shape_invariant example_store 9 (BookObj 10 "Dune" 5)).
  - apply example_store_reachable.
  - reflexivity.
Defined.

(** X2.  Starting from the initial data, the id [addBook] gives to a new
    book is 9 plus the number of mutations served before it, [addAuthor]
    calls included, and [books()] holds 8 records plus one per mutation. *)
Theorem addBook_id_counts_every_mutation
        (ms : list Mutation) (n : string) (a : Z) :
  evalState (RootMutationType.addBook n a) (execState (serve ms) initial)
  = BookObj (9 + Z.of_nat (List.length ms)) n a
  /\ List.length (RootQueryType.books (execState (serve ms) initial))
     = (8 + List.length ms)%nat.
Proof.
  assert (Hlen : List.length (books (execState (serve ms) initial))
                 = (8 + List.length ms)%nat).
  { rewrite serve_books, length_app, serve_length. reflexivity. }
  split; [|exact Hlen].
  unfold evalState. rewrite addBook_run, Hlen. simpl fst.
  f_equal. lia.
Qed.

(** X3.  In every reachable store, when two different positions of
    [books] hold records with equal id, the later of the two is a record
    of the author shape with id 5: two records of the book shape never
    share an id. *)
Theorem collisions_come_from_addAuthor (s : Store) (i j : nat) :
  reachable s ->
  id_collision (books s) i j ->
  (i < j)%nat ->
  exists n, nth_error (books s) j = Some (AuthorObj 5 n).
Proof.
  intros Hs [_ (x & y & Hx & Hy & Hxy)] Hij.
  destruct (reachable_books_shape s Hs) as [_ Hshape].
  pose proof (Hshape i x Hx) as Hwx. pose proof (Hshape j y Hy) as Hwy.
  destruct y as [k n|k n a]; simpl in Hwy.
  - destruct Hwy as [-> _]. now exists n.
  - exfalso. destruct x as [k' n'|k' n' a']; simpl in Hwx, Hxy;
      injection Hxy as Hk; lia.
Qed.

Lemma collisions_come_from_addAuthor_witness :
  exists n, nth_error (books example_store) 8 = Some (AuthorObj 5 n).
Proof.
  apply (collisions_come_from_addAuthor example_store 4 8).
  - apply example_store_reachable.
  - split; [discriminate|].
    exists (BookObj 5 "The Hobbit" 3), (AuthorObj 5 "Ursula K. Le Guin").
    repeat split.
  - repeat constructor.
Defined.

(** *** Lookups after mutations *)

(** X4.  In every reachable store, the id [addBook] gives out is held by
    no earlier record, so [book(id)] with the id of the book just added
    returns that very book. *)
Theorem addBook_then_book_finds_it (s : Store) (n : string) (a : Z) :
  reachable s ->
  RootQueryType.book
    (execState (RootMutationType.addBook n a) s)
    (RootQueryType.mkArgs (id (evalState (RootMutationType.addBook n a) s)))
  = Some (evalState (RootMutationType.addBook n a) s).
Proof.
  intros Hs. unfold execState, evalState. rewrite addBook_run. simpl.
  unfold RootQueryType.book. simpl. apply find_first.
  exists (books s), []. split; [reflexivity|]. split.
  - apply Z.eqb_refl.
  - apply Forall_forall. intros o Hin.
    destruct (reachable_ids_bounded s o Hs Hin) as (k & -> & Hk).
    simpl. apply Z.eqb_neq. lia.
Qed.

Lemma addBook_then_book_finds_it_witness :
  RootQueryType.book
    (execState (RootMutationType.addBook "Emma" 7) example_store)
    (RootQueryType.mkArgs
       (id (evalState (RootMutationType.addBook "Emma" 7) example_store)))
  = Some (BookObj 11 "Emma" 7).
Proof.
  apply (addBook_then_book_finds_it example_store "Emma" 7).
  apply example_store_reachable.
Defined.

(** X5.  In every reachable store, [book(id)] returns no record of the
    author shape, whatever the argument: a record stored by [addAuthor] is
    listed by [books()] but cannot be fetched by id. *)
Theorem book_never_returns_added_author
        (s : Store) (a : RootQueryType.args) (i : Z) (n : string) :
  reachable s ->
  RootQueryType.book s a <> Some (AuthorObj i n).
Proof.
  intros Hs Hfind. unfold RootQueryType.book in Hfind.
  apply find_first in Hfind as (before & after & Hbooks & Hid & Hbefore).
  destruct (reachable_books_shape s Hs) as [_ Hshape].
  assert (Hpos : nth_error (books s) (List.length before)
                 = Some (AuthorObj i n)).
  { rewrite Hbooks, nth_error_app2, Nat.sub_diag by lia. reflexivity. }
  destruct (Hshape _ _ Hpos) as [-> Hge].
  destruct (reaches_books_prefix initial s Hs) as [added Hadded].
  assert (Hhobbit : nth_error before 4 = Some (BookObj 5 "The Hobbit" 3)).
  { rewrite <- (nth_error_app1 before (AuthorObj 5 n :: after)) by lia.
    rewrite <- Hbooks, Hadded. reflexivity. }
  apply nth_error_In in Hhobbit.
  rewrite Forall_forall in Hbefore. specialize (Hbefore _ Hhobbit).
  apply strict_eq_true in Hid. rewrite <- Hid in Hbefore.
  simpl in Hbefore. discriminate.
Qed.

Lemma book_never_returns_added_author_witness :
  In (AuthorObj 5 "Ursula K. Le Guin") (RootQueryType.books example_store)
  /\ RootQueryType.book example_store (RootQueryType.mkArgs (JS.Num 5))
     <> Some (AuthorObj 5 "Ursula K. Le Guin").
Proof.
  split.
  - simpl. auto 10.
  - apply (book_never_returns_added_author
             example_store (RootQueryType.mkArgs (JS.Num 5))
             5 "Ursula K. Le Guin").
    apply example_store_reachable.
Defined.

(** X6.  A lookup that succeeded keeps its answer: if [book(id)] returns a
    record in some store, it returns the same record in every store the
    process gets to afterwards; the same holds for [author(id)]. *)
Theorem lookups_are_stable
        (s s' : Store) (a : RootQueryType.args) (o : Obj) :
  reaches s s' ->
  (RootQueryType.book s a = Some o -> RootQueryType.book s' a = Some o)
  /\ (RootQueryType.author s a = Some o ->
      RootQueryType.author s' a = Some o).
Proof.
  intros Hreach. split.
  - unfold RootQueryType.book. intros Hfind.
    destruct (reaches_books_prefix s s' Hreach) as [added ->].
    apply find_first in Hfind as (before & after & -> & Hid & Hbefore).
    apply find_first. exists before, (after ++ added).
    split; [|split; assumption].
    now rewrite <- app_assoc.
  - unfold RootQueryType.author.
    now rewrite (reaches_authors s s' Hreach).
Qed.

Lemma lookups_are_stable_witness :
  RootQueryType.book example_store (RootQueryType.mkArgs (JS.Num 5))
  = Some (BookObj 5 "The Hobbit" 3)
  /\ RootQueryType.author example_store (RootQueryType.mkArgs (JS.Num 3))
     = Some (AuthorObj 3 "J.R.R. Tolkien").
Proof.
  split.
  - apply (proj1 (lookups_are_stable
                    initial example_store
                    (RootQueryType.mkArgs (JS.Num 5))
                    (BookObj 5 "The Hobbit" 3)
                    example_store_reachable)).
    reflexivity.
  - apply (proj2 (lookups_are_stable
                    initial example_store
                    (RootQueryType.mkArgs (JS.Num 3))
                    (AuthorObj 3 "J.R.R. Tolkien")
                    example_store_reachable)).
    reflexivity.
Defined.

(** [find] by id over the four initial authors, whose ids are distinct. *)
Lemma find_initial_author (v : JS.value) (a : Obj) :
  JS.find (fun x => id x === v) (authors initial) = Some a
  <-> In a (authors initial) /\ id a = v.
Proof.
  split.
  - intros Hfind. apply find_first in Hfind as (before & after & Heq & Hid & _).
    split; [rewrite Heq; apply in_elt | now apply strict_eq_true].
  - intros [Hin <-]. simpl in Hin.
    destruct Hin as [<-|[<-|[<-|[<-|[]]]]]; reflexivity.
Qed.

(** X7.  In every reachable store, [author(id)] returns a record exactly
    when that record is one of the four initial authors and has the
    queried id; it returns absent exactly when the argument is not one of
    the numbers 1 to 4, so also for the id 5 that [addAuthor] hands out. *)
Theorem author_lookup_reachable
        (s : Store) (a : RootQueryType.args) (o : Obj) :
  reachable s ->
  (RootQueryType.author s a = Some o
   <-> In o (authors initial) /\ id o = RootQueryType.args_id a)
  /\ (RootQueryType.author s a = None
      <-> forall k, RootQueryType.args_id a = JS.Num k -> k < 1 \/ 4 < k).
Proof.
  intros Hs. unfold RootQueryType.author.
  rewrite (reachable_authors s Hs). split.
  - apply find_initial_author.
  - rewrite find_absent. unfold initial, authors.
    rewrite !Forall_cons_iff, !strict_eq_false. simpl.
    split.
    + intros (H1 & H2 & H3 & H4 & _) k Hk. rewrite Hk in *.
      assert (k <> 1 /\ k <> 2 /\ k <> 3 /\ k <> 4)
        by (repeat split; congruence).
      lia.
    + intros H. repeat split; try constructor;
        intros Heq; destruct (H _ (eq_sym Heq)); lia.
Qed.

Lemma author_lookup_reachable_witness :
  RootQueryType.author example_store (RootQueryType.mkArgs (JS.Num 2))
  = Some (AuthorObj 2 "George R.R. Martin")
  /\ RootQueryType.author example_store (RootQueryType.mkArgs (JS.Num 5))
     = None.
Proof.
  split.
  - apply (proj1 (author_lookup_reachable
                    example_store (RootQueryType.mkArgs (JS.Num 2))
                    (AuthorObj 2 "George R.R. Martin")
                    example_store_reachable)).
    simpl. auto.
  - apply (proj2 (author_lookup_reachable
                    example_store (RootQueryType.mkArgs (JS.Num 5))
                    (AuthorObj 2 "George R.R. Martin")
                    example_store_reachable)).
    simpl. intros k [= <-]. lia.
Defined.

(** X8.  With an explicit [null] as [id], [book] and [author] return
    absent on every store: [null] is strictly equal to no record's id. *)
Theorem lookup_with_null_is_absent (s : Store) :
  RootQueryType.book s (RootQueryType.mkArgs JS.Null) = None
  /\ RootQueryType.author s (RootQueryType.mkArgs JS.Null) = None.
Proof.
  assert (Hnone : forall arr, JS.find (fun o => id o === JS.Null) arr = None).
  { intros arr. apply find_absent, Forall_forall. intros o _.
    destruct (id_is_num o) as [k ->]. reflexivity. }
  unfold RootQueryType.book, RootQueryType.author. simpl.
  now rewrite !Hnone.
Qed.

(** *** The relation fields after mutations *)

(** X9.  In every reachable store, [Book.author] of a record resolves to
    [a] exactly when [a] is one of the four initial authors and its id is
    the record's [authorId]; a book whose [authorId] is the id an
    [addAuthor] call returned therefore resolves to absent. *)
Theorem Book_author_reachable (s : Store) (book a : Obj) (n : string) :
  reachable s ->
  (BookType.author s book = Some a
   <-> In a (authors initial) /\ id a = authorId book)
  /\ (authorId book = id (evalState (RootMutationType.addAuthor n) s) ->
      BookType.author s book = None).
Proof.
  intros Hs. unfold BookType.author. rewrite (reachable_authors s Hs).
  split; [apply find_initial_author|].
  unfold evalState. rewrite addAuthor_run, (reachable_authors s Hs).
  simpl. intros ->. reflexivity.
Qed.

Lemma Book_author_reachable_witness :
  In (BookObj 10 "Dune" 5) (books example_store)
  /\ BookType.author example_store (BookObj 10 "Dune" 5) = None
  /\ BookType.author example_store (BookObj 7 "Foundation" 4)
     = Some (AuthorObj 4 "Isaac Asimov").
Proof.
  split; [rewrite example_store_books; apply in_or_app; right; simpl; auto|].
  split.
  - apply (proj2 (Book_author_reachable
                    example_store (BookObj 10 "Dune" 5)
                    (AuthorObj 4 "Isaac Asimov") "Ursula K. Le Guin"
                    example_store_reachable)).
    reflexivity.
  - apply (proj1 (Book_author_reachable
                    example_store (BookObj 7 "Foundation" 4)
                    (AuthorObj 4 "Isaac Asimov") "Ursula K. Le Guin"
                    example_store_reachable)).
    split; [simpl; auto 10 | reflexivity].
Defined.

(** X10.  On any store, [addBook(name, authorId)] extends [Author.books]
    of an author by the new book, at the end, when the author's id is
    [authorId], and leaves it as it was for every other author. *)
Theorem Author_books_after_addBook
        (s : Store) (author : Obj) (n : string) (a : Z) :
  AuthorType.books (execState (RootMutationType.addBook n a) s) author
  = AuthorType.books s author
    ++ (if JS.Num a === id author
        then [evalState (RootMutationType.addBook n a) s]
        else []).
Proof.
  unfold execState, evalState. rewrite addBook_run.
  unfold AuthorType.books, JS.filter. simpl.
  rewrite filter_app. simpl.
  now destruct (JS.Num a === id author).
Qed.

(** X11.  On any store, [addAuthor] changes [Author.books] of no author:
    the record it pushes on [books] has no [authorId], and [undefined] is
    strictly equal to no author's id. *)
Theorem Author_books_after_addAuthor
        (s : Store) (author : Obj) (n : string) :
  AuthorType.books (execState (RootMutationType.addAuthor n) s) author
  = AuthorType.books s author.
Proof.
  unfold execState. rewrite addAuthor_run.
  unfold AuthorType.books, JS.filter. simpl.
  rewrite filter_app. simpl.
  destruct (id_is_num author) as [k ->]. simpl. apply app_nil_r.
Qed.

(** X12.  On any store and for any author, every record [Author.books]
    returns is of the book shape: the records [addAuthor] left in [books]
    never show up among an author's books. *)
Theorem Author_books_only_books (s : Store) (author : Obj) :
  Forall (fun b => exists i n a, b = BookObj i n a)
         (AuthorType.books s author).
Proof.
  unfold AuthorType.books. eapply Forall_impl; [|apply filter_all_pass].
  intros b Hb. simpl in Hb. destruct b as [i n|i n a].
  - destruct (id_is_num author) as [k Hk]. rewrite Hk in Hb. discriminate.
  - now exists i, n, a.
Qed.

(** X13.  In every reachable store the two relation fields agree: for an
    author [a] of [authors], a record is among [Author.books] of [a]
    exactly when it is a record of [books] whose [Book.author] is [a]. *)
Theorem relation_fields_agree (s : Store) (a b : Obj) :
  reachable s ->
  In a (authors s) ->
  (In b (AuthorType.books s a)
   <-> In b (books s) /\ BookType.author s b = Some a).
Proof.
  intros Hs Ha. unfold AuthorType.books, BookType.author, JS.filter.
  rewrite filter_In, strict_eq_true.
  pose proof (reachable_authors s Hs) as Hfix. rewrite Hfix in *.
  rewrite find_initial_author. intuition congruence.
Qed.

Lemma relation_fields_agree_witness :
  In (BookObj 5 "The Hobbit" 3)
     (AuthorType.books example_store (AuthorObj 3 "J.R.R. Tolkien"))
  <-> In (BookObj 5 "The Hobbit" 3) (books example_store)
      /\ BookType.author example_store (BookObj 5 "The Hobbit" 3)
         = Some (AuthorObj 3 "J.R.R. Tolkien").
Proof.
  apply (relation_fields_agree
           example_store (AuthorObj 3 "J.R.R. Tolkien")
           (BookObj 5 "The Hobbit" 3)).
  - apply example_store_reachable.
  - simpl. auto.
Defined.
